(** * dapper: the [State] cell and [createStateWith]

    A shallow embedding of [src/lib/createStateWith.ts] (the binder
    [createStateWith] and the class [State] it depends on) together with the
    properties of the two that the specification states.

    The program is TypeScript, so the embedding has three layers:

    - the fragment of the host language the source relies on: runtime values,
      a store of objects addressed by reference, [typeof], [!==],
      truthiness, [instanceof State], template-literal string conversion and
      function calls;
    - a small computation monad threading the store, an abrupt completion
      (a thrown exception) and a log of the calls a body makes;
    - the source's functions, written statement by statement in that monad.

    Modelling boundary.  Callbacks and effects are caller code: they are
    arbitrary store transformers taken from a table of function bodies
    ([fenv]) over which every theorem quantifies.  The methods of a cell are
    the ones [class State] declares; a subclass instance has a longer
    prototype chain and inherits them (a subclass overriding [get], [set] or
    [verifyValue] would bring code that is not in the source).  Accessor
    properties, proxies and frozen objects are outside the model. *)

From Stdlib Require Import ZArith String List Bool DecimalString.
From Stdlib Require Import Floats.SpecFloat.
From stdpp Require Import base option gmap strings.

Import ListNotations.
Local Open Scope string_scope.
Local Open Scope list_scope.

(** ** Runtime values *)

(** References to heap objects and identifiers of function bodies. *)
Abbreviation loc := nat (only parsing).
Abbreviation fid := nat (only parsing).
Abbreviation class_name := string (only parsing).

(** A number is an IEEE 754 double; [spec_float] is the Standard Library's
    datatype of such numbers, with a single NaN and two signed zeros. *)
Abbreviation number := spec_float (only parsing).

Inductive value : Type :=
| VUndefined
| VNull
| VBoolean (b : bool)
| VNumber (n : number)
| VBigInt (z : Z)
| VString (s : string)
| VSymbol (id : nat)
| VObject (l : loc).

(** An object: the names of the classes found along its prototype chain
    (most derived first), its [[Call]] behaviour if it is a function, and
    its own data properties. *)
Record object : Type := mkObject {
  proto_chain : list class_name;
  callable : option fid;
  props : gmap string value
}.

Abbreviation store := (gmap loc object) (only parsing).

Definition NaN : number := S754_nan.

(** ** Exceptions and outcomes *)

(** Modelled from the spec: the classes [ValidationError] and
    [InstanceError] live in [./errors/], which is not part of the sources at
    hand; the specification treats them as two opaque error kinds carrying a
    message.  [TypeError] is the host's own error, and [Thrown] is any value
    thrown by caller code. *)
Inductive exception : Type :=
| ValidationError (message : string)
| InstanceError (message : string)
| TypeError (message : string)
| Thrown (v : value).

(** How a computation ends: normally with a result, abruptly with an
    exception, or not at all.  The store that is left is part of both
    completions: nothing is rolled back when an exception is thrown. *)
Inductive outcome (A : Type) : Type :=
| Returns (a : A) (st : store)
| Throws (e : exception) (st : store)
| Diverges.

Arguments Returns {A} a st.
Arguments Throws {A} e st.
Arguments Diverges {A}.

(** One call made by a body: the function body called, its [this] and its
    arguments. *)
Record call : Type := mkCall {
  callee : fid;
  call_this : value;
  call_args : list value
}.

(** ** The computation monad *)

Module Comp.

(** A computation runs in a store and yields the calls it made itself, in
    order, and its outcome.  Calls made inside a callee are the callee's
    business and are not part of the caller's log. *)
Definition M (A : Type) : Type := store -> list call * outcome A.

Definition ret {A} (a : A) : M A := fun st => ([], Returns a st).

Definition bind {A B} (m : M A) (k : A -> M B) : M B :=
  fun st =>
    match m st with
    | (t1, Returns a st1) => let '(t2, o) := k a st1 in (t1 ++ t2, o)
    | (t1, Throws e st1) => (t1, Throws e st1)
    | (t1, Diverges) => (t1, Diverges)
    end.

Definition throw {A} (e : exception) : M A := fun st => ([], Throws e st).

(** Reading from and updating the store. *)
Definition gets {A} (f : store -> A) : M A := fun st => ([], Returns (f st) st).
Definition modify (f : store -> store) : M unit := fun st => ([], Returns tt (f st)).

(** A step of the host that runs no logged call. *)
Definition host {A} (f : store -> outcome A) : M A := fun st => ([], f st).

(** The outcome of a body that waits for [o] to complete, drops its
    result and returns [b]; an exception, or divergence, passes through. *)
Definition returning {A B} (b : B) (o : outcome A) : outcome B :=
  match o with
  | Returns _ st => Returns b st
  | Throws e st => Throws e st
  | Diverges => Diverges
  end.

Definition calls {A} (r : list call * outcome A) : list call := fst r.
Definition result {A} (r : list call * outcome A) : outcome A := snd r.

(** The store a computation leaves behind when it ends, however it ends. *)
Definition final_store {A} (o : outcome A) : option store :=
  match o with
  | Returns _ st => Some st
  | Throws _ st => Some st
  | Diverges => None
  end.

End Comp.

Import Comp.

Notation "'let*' x ':=' m 'in' k" := (bind m (fun x => k))
  (at level 10, x name, m at level 100, k at level 200).
Notation "m ';;' k" := (bind m (fun _ => k))
  (at level 100, k at level 200, right associativity).

(** ** The host language *)

Module Host.

(** Own data properties; a property that is absent reads as [undefined]. *)
Definition get_prop (st : store) (l : loc) (name : string) : value :=
  match st !! l with
  | Some o => default VUndefined (props o !! name)
  | None => VUndefined
  end.

Definition set_prop (l : loc) (name : string) (v : value) (st : store) : store :=
  match st !! l with
  | Some o => <[l := mkObject (proto_chain o) (callable o) (<[name := v]> (props o))]> st
  | None => st
  end.

(** [typeof v]. *)
Definition typeof (st : store) (v : value) : string :=
  match v with
  | VUndefined => "undefined"
  | VNull => "object"
  | VBoolean _ => "boolean"
  | VNumber _ => "number"
  | VBigInt _ => "bigint"
  | VString _ => "string"
  | VSymbol _ => "symbol"
  | VObject l =>
      match st !! l with
      | Some o => if callable o is Some _ then "function" else "object"
      | None => "object"
      end
  end.

(** [a === b]: values of different types are never equal, numbers compare
    as IEEE doubles (so NaN differs from itself and the two zeros are
    equal), objects compare by reference. *)
Definition strict_equals (a b : value) : bool :=
  match a, b with
  | VUndefined, VUndefined => true
  | VNull, VNull => true
  | VBoolean x, VBoolean y => Bool.eqb x y
  | VNumber x, VNumber y => SFeqb x y
  | VBigInt x, VBigInt y => Z.eqb x y
  | VString x, VString y => String.eqb x y
  | VSymbol x, VSymbol y => Nat.eqb x y
  | VObject x, VObject y => Nat.eqb x y
  | _, _ => false
  end.

(** [a !== b]. *)
Definition strict_not_equals (a b : value) : bool := negb (strict_equals a b).

(** Truthiness, as tested by [if (v)]. *)
Definition ToBoolean (v : value) : bool :=
  match v with
  | VUndefined | VNull => false
  | VBoolean b => b
  | VNumber n => match n with S754_zero _ | S754_nan => false | _ => true end
  | VBigInt z => negb (Z.eqb z 0)
  | VString s => negb (String.eqb s "")
  | VSymbol _ | VObject _ => true
  end.

(** [v instanceof State]: only an object with [State.prototype] on its
    prototype chain. *)
Definition instanceof_State (st : store) (v : value) : bool :=
  match v with
  | VObject l =>
      match st !! l with
      | Some o => bool_decide ("State" ∈ proto_chain o)
      | None => false
      end
  | _ => false
  end.

(** The class of an object, as its prototype chain tells it. *)
Definition class_of (st : store) (v : value) : option (list class_name) :=
  match v with
  | VObject l => proto_chain <$> st !! l
  | _ => None
  end.

(** The body run by calling [f], when [f] is a function object. *)
Definition function_body (st : store) (f : value) : option fid :=
  match f with
  | VObject l => st !! l ≫= callable
  | _ => None
  end.

Section WithEnvironment.

(** The bodies of the function objects of the program. *)
Variable fenv : fid -> value -> list value -> store -> outcome value.

(** The host's conversions to string that the sources do not fix: the
    digits of a number, and the conversion of an object, which runs the
    object's own [toString] and may therefore do anything. *)
Variable NumberToString : number -> string.
Variable ObjectToString : loc -> store -> outcome string.

Definition BigIntToString (z : Z) : string :=
  DecimalString.NilZero.string_of_int (Z.to_int z).

(** String conversion as performed by a template literal.  A symbol has
    no implicit conversion to a string: the host throws a [TypeError]. *)
Definition ToString (v : value) : M string :=
  match v with
  | VUndefined => ret "undefined"
  | VNull => ret "null"
  | VBoolean b => ret (if b then "true" else "false")
  | VNumber n => ret (NumberToString n)
  | VBigInt z => ret (BigIntToString z)
  | VString s => ret s
  | VSymbol _ => throw (TypeError "Cannot convert a Symbol value to a string")
  | VObject l => host (ObjectToString l)
  end.

(** [f.call(this, ...args)]: the call is logged and the body runs; a
    value that is not a function cannot be called. *)
Definition Call (f : value) (this : value) (args : list value) : M value :=
  fun st =>
    match function_body st f with
    | Some body => ([mkCall body this args], fenv body this args st)
    | None => ([], Throws (TypeError "not a function") st)
    end.

End WithEnvironment.

End Host.

Import Host.

(** ** The program *)

(** [class State<T>] of the source.  [this] is the reference of the
    receiver. *)
Module State.

Section WithEnvironment.

Variable fenv : fid -> value -> list value -> store -> outcome value.

(** Reading and assigning a property of [this]. *)
Definition read (this : loc) (name : string) : M value :=
  gets (fun st => get_prop st this name).

Definition assign (this : loc) (name : string) (v : value) : M unit :=
  modify (set_prop this name v).

(** [new C(value, onChange)] for [State] itself ([derived = []]) or for
    a class that extends it and inherits its constructor: a fresh
    object is allocated, then the constructor body runs its two
    assignments. *)
Definition alloc (chain : list class_name) : M loc :=
  fun st =>
    let l := fresh (dom st) in
    ([], Returns l (<[l := mkObject chain None ∅]> st)).

Definition constructor (derived : list class_name) (value' onChange : value) : M value :=
  let* this := alloc (derived ++ ["State"; "Object"]) in
  assign this "value" value' ;;
  assign this "onChange" onChange ;;
  ret (VObject this).

(** [verifyValue(newValue)]. *)
Definition verifyValue (this : loc) (newValue : value) : M bool :=
  let* recievedType := gets (fun st => typeof st newValue) in
  let* valueType := gets (fun st => typeof st (get_prop st this "value")) in
  let* newType := gets (fun st => typeof st newValue) in
  if negb (String.eqb newType valueType) then
    throw (ValidationError
             ("Expected type of " ++ valueType ++ " but recieved " ++ recievedType))
  else
    let* current := read this "value" in
    ret (strict_not_equals current newValue).

(** [set(newValue)]. *)
Definition set (this : loc) (newValue : value) : M unit :=
  let* changed := verifyValue this newValue in
  if changed then
    assign this "value" newValue ;;
    let* guard := read this "onChange" in
    if ToBoolean guard then
      let* onChange := read this "onChange" in
      let* argument := read this "value" in
      Call fenv onChange (VObject this) [argument] ;;
      ret tt
    else ret tt
  else ret tt.

(** [get()]. *)
Definition get (this : loc) : M value := read this "value".

End WithEnvironment.

End State.

(** [createStateWith(extendedState, initalEffect?)] of the source.  An
    omitted [initalEffect] is [undefined].  Past the [instanceof] check the
    receiver of [get] is an instance of [State], whose [get] is
    [State.get]. *)
Module Binder.

Section WithEnvironment.

Variable fenv : fid -> value -> list value -> store -> outcome value.
Variable NumberToString : number -> string.
Variable ObjectToString : loc -> store -> outcome string.

Definition method_get (receiver : value) : M value :=
  match receiver with
  | VObject l => State.get l
  | _ => throw (TypeError "Cannot read properties")
  end.

Definition createStateWith (extendedState initalEffect : value) : M value :=
  let* is_instance := gets (fun st => instanceof_State st extendedState) in
  if is_instance then
    let* effectType := gets (fun st => typeof st initalEffect) in
    (if negb (String.eqb effectType "undefined") then
       let* current := method_get extendedState in
       Call fenv initalEffect VUndefined [current] ;;
       ret tt
     else ret tt) ;;
    ret extendedState
  else
    let* shown := ToString NumberToString ObjectToString extendedState in
    throw (InstanceError (shown ++ " is not an instance of the State class.")).

End WithEnvironment.

End Binder.

(** ** A concrete scene, for evaluation *)

Module Scene.

(** The double nearest to an integer, in canonical form. *)
Definition double (z : Z) : value := VNumber (binary_normalize 53 1024 z 0 false).

(** References fixed by the scene: a plain object used as a notebook, an
    object of another class, five function objects, and the cell, which is
    the next object allocated. *)
Definition probe : loc := 0.
Definition date : loc := 1.
Definition record_fn : loc := 2.
Definition clamp_fn : loc := 3.
Definition reject_fn : loc := 4.
Definition boom_fn : loc := 5.
Definition note_fn : loc := 6.
Definition cell : loc := 7.

Definition plain_object : object := mkObject ["Object"] None ∅.
Definition function_object (body : fid) : object :=
  mkObject ["Function"; "Object"] (Some body) ∅.

Definition base : store :=
  <[note_fn := function_object 4]>
    (<[boom_fn := function_object 3]>
       (<[reject_fn := function_object 2]>
          (<[clamp_fn := function_object 1]>
             (<[record_fn := function_object 0]>
                (<[date := mkObject ["Date"; "Object"] None ∅]>
                   (<[probe := plain_object]> ∅)))))).

(** The store after [cell = { get() {}, set() {} }], a plain object with
    the shape of a cell. *)
Definition with_lookalike : store :=
  <[cell := mkObject ["Object"] None
              (<["get" := VObject record_fn]> (<["set" := VObject record_fn]> ∅))]> base.

(** The store after [cell = new State(initial, onChange)]. *)
Definition with_cell (initial onChange : value) : store :=
  match result (State.constructor [] initial onChange base) with
  | Returns _ st => st
  | _ => base
  end.

(** Numeric [a < b] on values, false when either is not a number. *)
Definition less_than (a b : value) : bool :=
  match a, b with
  | VNumber x, VNumber y => SFltb x y
  | _, _ => false
  end.

(** The bodies of the five functions.  They close over [cell] and
    [probe]; [fuel] bounds the depth of the calls they make back into
    the cell, and a run that stays within it is the run of the program.
    - 0: [x => { probe.seen = cell.get() }]
    - 1: [x => { if (x > 10) cell.set(10) }]
    - 2: [x => { if (x < 0) { cell.set(0); throw "negative" } }]
    - 3: [x => { throw "boom" }]
    - 4: [x => { probe.noted = x }] *)
Fixpoint code (fuel : nat) (body : fid) (this : value) (args : list value)
    (st : store) : outcome value :=
  match fuel with
  | O => Diverges
  | S fuel' =>
      let x := hd VUndefined args in
      match body with
      | 0 =>
          result ((let* seen := State.get cell in
                   State.assign probe "seen" seen ;;
                   ret VUndefined) st)
      | 1 =>
          if less_than (double 10) x then
            result ((State.set (code fuel') cell (double 10) ;;
                     ret VUndefined) st)
          else Returns VUndefined st
      | 2 =>
          if less_than x (double 0) then
            result ((State.set (code fuel') cell (double 0) ;;
                     throw (Thrown (VString "negative"))) st)
          else Returns VUndefined st
      | 3 => Throws (Thrown (VString "boom")) st
      | 4 => result ((State.assign probe "noted" x ;; ret VUndefined) st)
      | _ => Returns VUndefined st
      end
  end.

(** The host's conversions for ordinary objects; the digits of numbers
    play no part in the scene. *)
Definition ObjectToString : loc -> store -> outcome string :=
  fun _ st => Returns "[object Object]" st.

Definition NumberToString : number -> string := fun _ => "0".

(** Function bodies that all return at once and leave the store alone. *)
Definition idle : fid -> value -> list value -> store -> outcome value :=
  fun _ _ _ st => Returns VUndefined st.

End Scene.

(** ** Facts about the host operations *)

Section HostFacts.

Implicit Types (st : store) (l : loc) (v w : value) (name : string).

Lemma SFeqb_is_number_equality (x y : number) :
  SFeqb x y = true -> x <> NaN /\ y <> NaN.
Proof.
  unfold SFeqb, NaN. destruct x, y; simpl; intros H; split; congruence.
Qed.

Lemma SFeqb_reflexive (x : number) : x <> NaN -> SFeqb x x = true.
Proof.
  unfold SFeqb, NaN. destruct x as [s|s| |s m e]; simpl; try congruence.
  - destruct s; reflexivity.
  - intros _. rewrite Z.compare_refl, Pos.compare_refl.
    destruct s; reflexivity.
Qed.

(** Values that are [===] have the same [typeof]. *)
Lemma strict_equals_typeof st v w :
  strict_equals v w = true -> typeof st v = typeof st w.
Proof.
  destruct v, w; simpl; try congruence.
  intros H. apply Nat.eqb_eq in H. subst. reflexivity.
Qed.

(** Every value but NaN is [===] to itself. *)
Lemma strict_equals_reflexive v : v <> VNumber NaN -> strict_equals v v = true.
Proof.
  destruct v; simpl; intros H.
  - reflexivity.
  - reflexivity.
  - apply Bool.eqb_reflx.
  - apply SFeqb_reflexive. congruence.
  - apply Z.eqb_refl.
  - apply String.eqb_refl.
  - apply Nat.eqb_refl.
  - apply Nat.eqb_refl.
Qed.

Lemma get_prop_set_prop_same st l name v :
  is_Some (st !! l) -> get_prop (set_prop l name v st) l name = v.
Proof.
  intros [o Ho]. unfold get_prop, set_prop. rewrite Ho.
  rewrite lookup_insert_eq. simpl. rewrite lookup_insert_eq. reflexivity.
Qed.

Lemma get_prop_set_prop_other st l l' name name' v :
  name <> name' -> get_prop (set_prop l name v st) l' name' = get_prop st l' name'.
Proof.
  intros Hne. unfold get_prop, set_prop.
  destruct (st !! l) as [o|] eqn:Ho; [|reflexivity].
  destruct (decide (l = l')) as [->|Hl].
  - rewrite lookup_insert_eq, Ho. simpl. rewrite lookup_insert_ne by done. reflexivity.
  - rewrite lookup_insert_ne by done. reflexivity.
Qed.

(** Assigning a data property changes neither what is callable nor any
    prototype chain. *)
Lemma callable_set_prop st l l' name v :
  set_prop l name v st !! l' ≫= callable = st !! l' ≫= callable.
Proof.
  unfold set_prop. destruct (st !! l) as [o|] eqn:Ho; [|reflexivity].
  destruct (decide (l = l')) as [->|Hl].
  - rewrite lookup_insert_eq, Ho. reflexivity.
  - rewrite lookup_insert_ne by done. reflexivity.
Qed.

Lemma function_body_set_prop st l name v (f : value) :
  function_body (set_prop l name v st) f = function_body st f.
Proof.
  destruct f; try reflexivity. apply callable_set_prop.
Qed.

(** A function object is truthy and its [typeof] is ["function"]. *)
Lemma function_body_truthy st (f : value) body :
  function_body st f = Some body -> ToBoolean f = true.
Proof.
  destruct f; simpl; try discriminate. reflexivity.
Qed.

Lemma function_body_typeof st (f : value) body :
  function_body st f = Some body -> typeof st f = "function".
Proof.
  destruct f; simpl; try discriminate.
  destruct (st !! l) as [o|]; simpl; [|discriminate].
  intros ->. reflexivity.
Qed.

Lemma proto_chain_set_prop st l l' name v :
  proto_chain <$> (set_prop l name v st !! l') = proto_chain <$> (st !! l').
Proof.
  unfold set_prop. destruct (st !! l) as [o|] eqn:Ho; [|reflexivity].
  destruct (decide (l = l')) as [->|Hl].
  - rewrite lookup_insert_eq, Ho. reflexivity.
  - rewrite lookup_insert_ne by done. reflexivity.
Qed.

(** A cell is allocated. *)
Lemma instanceof_State_allocated st l :
  instanceof_State st (VObject l) = true -> is_Some (st !! l).
Proof.
  simpl. destruct (st !! l); [eauto | discriminate].
Qed.

(** Only a reference to an object is an instance. *)
Lemma instanceof_State_object st v :
  instanceof_State st v = true -> exists l, v = VObject l.
Proof.
  destruct v; simpl; try discriminate. eauto.
Qed.

(** A value whose [typeof] is ["object"] is [null] or a reference. *)
Lemma typeof_object st v :
  typeof st v = "object" -> v = VNull \/ exists l, v = VObject l.
Proof.
  destruct v; simpl; try discriminate; eauto.
Qed.

End HostFacts.


(** ** How [set] and [createStateWith] run *)

Section Steps.

Context {A B : Type}.
Implicit Types (st : store) (k : A -> M B).

Lemma bind_ret (a : A) k st : bind (ret a) k st = k a st.
Proof. unfold bind, ret. destruct (k a st). reflexivity. Qed.

Lemma bind_gets (f : store -> A) k st : bind (gets f) k st = k (f st) st.
Proof. unfold bind, gets. destruct (k (f st) st). reflexivity. Qed.

Lemma bind_modify (f : store -> store) (k : unit -> M B) st :
  bind (modify f) k st = k tt (f st).
Proof. unfold bind, modify. destruct (k tt (f st)). reflexivity. Qed.

Lemma bind_throw (e : exception) k st :
  bind (throw e) k st = ([], Throws e st).
Proof. reflexivity. Qed.

Lemma bind_host (f : store -> outcome A) k st :
  bind (host f) k st =
    match f st with
    | Returns a st1 => k a st1
    | Throws e st1 => ([], Throws e st1)
    | Diverges => ([], Diverges)
    end.
Proof.
  unfold bind, host. destruct (f st) as [a st1|e st1|]; try reflexivity.
  destruct (k a st1). reflexivity.
Qed.

Lemma bind_assoc {C} (m : M A) k (h : B -> M C) st :
  bind (bind m k) h st = bind m (fun a => bind (k a) h) st.
Proof.
  unfold bind. destruct (m st) as [t1 [a st1|e st1|]]; try reflexivity.
  destruct (k a st1) as [t2 [b st2|e st2|]]; try reflexivity.
  destruct (h b st2) as [t3 o]. rewrite app_assoc. reflexivity.
Qed.

End Steps.

Section Runs.

Variable fenv : fid -> value -> list value -> store -> outcome value.
Variable NumberToString : number -> string.
Variable ObjectToString : loc -> store -> outcome string.

Implicit Types (st : store) (this l : loc) (v : value).

(** A call whose result is dropped. *)
Lemma bind_Call_ret {B} (f this' : value) (args : list value) (b : B) st :
  bind (Call fenv f this' args) (fun _ => ret b) st =
    match function_body st f with
    | Some body => ([mkCall body this' args], returning b (fenv body this' args st))
    | None => ([], Throws (TypeError "not a function") st)
    end.
Proof.
  unfold bind, Call, ret.
  destruct (function_body st f) as [body|]; [|reflexivity].
  destruct (fenv body this' args st); reflexivity.
Qed.

Lemma get_run this st :
  State.get this st = ([], Returns (get_prop st this "value") st).
Proof. reflexivity. Qed.

Lemma verifyValue_mismatch this v st :
  typeof st v <> typeof st (get_prop st this "value") ->
  State.verifyValue this v st =
    ([], Throws (ValidationError
                   ("Expected type of " ++ typeof st (get_prop st this "value")
                    ++ " but recieved " ++ typeof st v)) st).
Proof.
  intros H. apply String.eqb_neq in H.
  unfold State.verifyValue. rewrite !bind_gets, H. reflexivity.
Qed.

Lemma verifyValue_match this v st :
  typeof st v = typeof st (get_prop st this "value") ->
  State.verifyValue this v st =
    ([], Returns (strict_not_equals (get_prop st this "value") v) st).
Proof.
  intros H. apply String.eqb_eq in H.
  unfold State.verifyValue, State.read. rewrite !bind_gets, H. simpl.
  rewrite bind_gets. reflexivity.
Qed.

Lemma set_mismatch this v st :
  typeof st v <> typeof st (get_prop st this "value") ->
  State.set fenv this v st =
    ([], Throws (ValidationError
                   ("Expected type of " ++ typeof st (get_prop st this "value")
                    ++ " but recieved " ++ typeof st v)) st).
Proof.
  intros H. unfold State.set, bind at 1.
  rewrite verifyValue_mismatch by exact H. reflexivity.
Qed.

(** What [set] does once [verifyValue] has returned [changed]. *)
Lemma set_after_verify this v st :
  typeof st v = typeof st (get_prop st this "value") ->
  State.set fenv this v st =
    if strict_not_equals (get_prop st this "value") v then
      let st1 := set_prop this "value" v st in
      if ToBoolean (get_prop st1 this "onChange") then
        match function_body st1 (get_prop st1 this "onChange") with
        | Some body =>
            ([mkCall body (VObject this) [get_prop st1 this "value"]],
             returning tt (fenv body (VObject this) [get_prop st1 this "value"] st1))
        | None => ([], Throws (TypeError "not a function") st1)
        end
      else ([], Returns tt st1)
    else ([], Returns tt st).
Proof.
  intros Hty. unfold State.set, bind at 1.
  rewrite verifyValue_match by exact Hty.
  destruct (strict_not_equals (get_prop st this "value") v); [|reflexivity].
  change (?t ++ ?u) with u at 1.
  assert (Hsplit : forall (r : list call * outcome unit),
             (let '(t2, o) := r in (t2, o)) = r) by (intros [? ?]; reflexivity).
  rewrite Hsplit.
  unfold State.assign, State.read.
  rewrite bind_modify, bind_gets. cbv zeta.
  destruct (ToBoolean (get_prop (set_prop this "value" v st) this "onChange"));
    [|reflexivity].
  rewrite !bind_gets. apply bind_Call_ret.
Qed.

Lemma set_equal this v st :
  strict_equals (get_prop st this "value") v = true ->
  State.set fenv this v st = ([], Returns tt st).
Proof.
  intros H.
  rewrite set_after_verify by (symmetry; apply strict_equals_typeof; exact H).
  unfold strict_not_equals. rewrite H. reflexivity.
Qed.

(** A changing [set] on a cell with a callback: the assignment, then one
    call of the callback in the store the assignment left. *)
Lemma set_changed_callback this v st body :
  is_Some (st !! this) ->
  function_body st (get_prop st this "onChange") = Some body ->
  typeof st v = typeof st (get_prop st this "value") ->
  strict_equals (get_prop st this "value") v = false ->
  State.set fenv this v st =
    ([mkCall body (VObject this) [v]],
     returning tt (fenv body (VObject this) [v] (set_prop this "value" v st))).
Proof.
  intros Halloc Hbody Hty Hne.
  rewrite set_after_verify by exact Hty.
  unfold strict_not_equals. rewrite Hne. cbv zeta. simpl negb. cbv iota.
  rewrite !(get_prop_set_prop_other st this this "value" "onChange") by discriminate.
  rewrite (function_body_truthy st _ body Hbody).
  rewrite function_body_set_prop, Hbody.
  rewrite get_prop_set_prop_same by exact Halloc.
  reflexivity.
Qed.

(** A changing [set] on a cell without a callback: the assignment alone. *)
Lemma set_changed_silent this v st :
  ToBoolean (get_prop st this "onChange") = false ->
  typeof st v = typeof st (get_prop st this "value") ->
  strict_equals (get_prop st this "value") v = false ->
  State.set fenv this v st = ([], Returns tt (set_prop this "value" v st)).
Proof.
  intros Hcb Hty Hne.
  rewrite set_after_verify by exact Hty.
  unfold strict_not_equals. rewrite Hne. cbv zeta. simpl negb. cbv iota.
  rewrite !(get_prop_set_prop_other st this this "value" "onChange") by discriminate.
  rewrite Hcb. reflexivity.
Qed.

(** A call whose result is dropped twice over, as in the binder. *)
Lemma bind_Call_ret_ret {B} (f this' : value) (args : list value) (b : B) st :
  bind (Call fenv f this' args) (fun _ => bind (ret tt) (fun _ => ret b)) st =
    match function_body st f with
    | Some body => ([mkCall body this' args], returning b (fenv body this' args st))
    | None => ([], Throws (TypeError "not a function") st)
    end.
Proof.
  unfold bind, Call, ret.
  destruct (function_body st f) as [body|]; [|reflexivity].
  destruct (fenv body this' args st); reflexivity.
Qed.

(** The string conversion logs no call. *)
Lemma ToString_calls v st :
  calls (ToString NumberToString ObjectToString v st) = [].
Proof. destruct v; reflexivity. Qed.

(** The binder on something that is not an instance: the conversion of
    the argument, then the throw. *)
Lemma createStateWith_not_instance v (effect : value) st :
  instanceof_State st v = false ->
  Binder.createStateWith fenv NumberToString ObjectToString v effect st =
    match result (ToString NumberToString ObjectToString v st) with
    | Returns shown st1 =>
        ([], Throws (InstanceError (shown ++ " is not an instance of the State class.")) st1)
    | Throws e st1 => ([], Throws e st1)
    | Diverges => ([], Diverges)
    end.
Proof.
  intros H. unfold Binder.createStateWith. rewrite bind_gets, H.
  destruct v; reflexivity.
Qed.

(** The binder on an instance: nothing but the call of the effect, if
    there is one. *)
Lemma createStateWith_instance this (effect : value) st :
  instanceof_State st (VObject this) = true ->
  Binder.createStateWith fenv NumberToString ObjectToString (VObject this) effect st =
    if String.eqb (typeof st effect) "undefined" then ([], Returns (VObject this) st)
    else
      match function_body st effect with
      | Some body =>
          ([mkCall body VUndefined [get_prop st this "value"]],
           returning (VObject this) (fenv body VUndefined [get_prop st this "value"] st))
      | None => ([], Throws (TypeError "not a function") st)
      end.
Proof.
  intros H. unfold Binder.createStateWith. rewrite bind_gets, H, bind_gets.
  destruct (String.eqb (typeof st effect) "undefined"); simpl negb; cbv iota.
  - rewrite bind_ret. reflexivity.
  - unfold Binder.method_get, State.get, State.read.
    rewrite bind_assoc, bind_gets, bind_assoc.
    apply bind_Call_ret_ret.
Qed.

End Runs.


(** ** The properties of [State.set] *)

Section SetProperties.

Variable fenv : fid -> value -> list value -> store -> outcome value.

Implicit Types (st : store) (this : loc) (v : value) (body : fid).

(** C1, as amended.  On a cell with a registered [onChange] callback,
    [set(v)] with [v] of the stored value's [typeof] and [v !==] the stored
    value first assigns [v] (a [get()] in the store handed to the callback
    returns [v]), then itself calls the callback exactly once, with
    argument [v], and ends as that call ends.  When the callback returns
    and has left the stored value alone, [set] returns and a subsequent
    [get()] returns [v]. *)
Theorem set_notifies_once this v st body :
  instanceof_State st (VObject this) = true ->
  function_body st (get_prop st this "onChange") = Some body ->
  typeof st v = typeof st (get_prop st this "value") ->
  strict_equals (get_prop st this "value") v = false ->
  let st1 := set_prop this "value" v st in
  State.get this st1 = ([], Returns v st1) /\
  calls (State.set fenv this v st) = [mkCall body (VObject this) [v]] /\
  result (State.set fenv this v st) = returning tt (fenv body (VObject this) [v] st1) /\
  (forall r st2,
      fenv body (VObject this) [v] st1 = Returns r st2 ->
      get_prop st2 this "value" = get_prop st1 this "value" ->
      result (State.set fenv this v st) = Returns tt st2 /\
      State.get this st2 = ([], Returns v st2)).
Proof.
  intros Hcell Hbody Hty Hne st1.
  pose proof (instanceof_State_allocated _ _ Hcell) as Halloc.
  assert (Hv : get_prop st1 this "value" = v)
    by (apply get_prop_set_prop_same; exact Halloc).
  rewrite (set_changed_callback fenv this v st body Halloc Hbody Hty Hne).
  fold st1. split; [|split; [|split]].
  - rewrite get_run, Hv. reflexivity.
  - reflexivity.
  - reflexivity.
  - intros r st2 Hreturns Hkept. split.
    + unfold result. simpl. rewrite Hreturns. reflexivity.
    + rewrite get_run, Hkept, Hv. reflexivity.
Qed.

(** C2.  [set] with a value whose [typeof] differs from the stored value's
    fails with a [ValidationError]; the store it leaves is the store it
    found, so [get()] returns what it returned before, and no call is made:
    the callback is not invoked. *)
Theorem set_rejects_other_type this v st :
  typeof st v <> typeof st (get_prop st this "value") ->
  exists message st',
    result (State.set fenv this v st) = Throws (ValidationError message) st' /\
    calls (State.set fenv this v st) = [] /\
    st' = st /\
    State.get this st' = State.get this st.
Proof.
  intros H. rewrite (set_mismatch fenv this v st H).
  eexists. exists st. repeat split; reflexivity.
Qed.

(** C4, as amended.  [set] with a value that is [===] to the stored value
    changes nothing in the store and makes no call.  [set(get())] is such a
    call whenever the stored value is not NaN. *)
Theorem set_equal_is_noop this st :
  (forall v, strict_equals (get_prop st this "value") v = true ->
             State.set fenv this v st = ([], Returns tt st)) /\
  (get_prop st this "value" <> VNumber NaN ->
   forall v, result (State.get this st) = Returns v st ->
             State.set fenv this v st = ([], Returns tt st)).
Proof.
  split.
  - intros v H. apply set_equal. exact H.
  - intros Hnan v Hget. rewrite get_run in Hget. injection Hget as <-.
    apply set_equal. apply strict_equals_reflexive. exact Hnan.
Qed.

(** C8.  When the stored value is NaN, [set(NaN)] passes the type check and
    [verifyValue] reports a change; the value is assigned again and the
    callback, if there is one, is called, in every store where the stored
    value is NaN.  With NaN stored, [verifyValue] never answers "unchanged",
    whatever the argument. *)
Theorem set_NaN_always_changes this st :
  get_prop st this "value" = VNumber NaN ->
  let st1 := set_prop this "value" (VNumber NaN) st in
  State.verifyValue this (VNumber NaN) st = ([], Returns true st) /\
  get_prop st1 this "value" = VNumber NaN /\
  (forall body,
      function_body st (get_prop st this "onChange") = Some body ->
      State.set fenv this (VNumber NaN) st =
        ([mkCall body (VObject this) [VNumber NaN]],
         returning tt (fenv body (VObject this) [VNumber NaN] st1))) /\
  (ToBoolean (get_prop st this "onChange") = false ->
   State.set fenv this (VNumber NaN) st = ([], Returns tt st1)) /\
  (forall v, State.verifyValue this v st <> ([], Returns false st)).
Proof.
  intros Hcur st1.
  assert (Halloc : is_Some (st !! this)).
  { unfold get_prop in Hcur. destruct (st !! this); [eauto | discriminate]. }
  assert (Hty : typeof st (VNumber NaN) = typeof st (get_prop st this "value"))
    by (rewrite Hcur; reflexivity).
  assert (Hne : strict_equals (get_prop st this "value") (VNumber NaN) = false)
    by (rewrite Hcur; reflexivity).
  split; [|split; [|split; [|split]]].
  - rewrite verifyValue_match by exact Hty.
    unfold strict_not_equals. rewrite Hne. reflexivity.
  - apply get_prop_set_prop_same. exact Halloc.
  - intros body Hbody. apply set_changed_callback; assumption.
  - intros Hsilent. apply set_changed_silent; assumption.
  - intros v.
    destruct (String.eqb_spec (typeof st v) (typeof st (get_prop st this "value")))
      as [Hsame | Hother].
    + rewrite verifyValue_match by exact Hsame.
      rewrite Hcur in *. destruct v; try discriminate Hsame.
      * destruct n; discriminate.
      * simpl in Hsame. destruct (st !! l) as [o|]; [|discriminate].
        destruct (callable o); discriminate.
    + rewrite verifyValue_mismatch by exact Hother. discriminate.
Qed.

(** C9.  The check of [set] compares [typeof] tags only.  When the stored
    value is an object and not [null], [set(null)] and [set] of an object
    of any other class pass [verifyValue], which reports a change; the
    stored value is replaced and the callback, if there is one, is
    called. *)
Theorem set_checks_typeof_only this v st :
  typeof st (get_prop st this "value") = "object" ->
  get_prop st this "value" <> VNull ->
  v = VNull \/
    (typeof st v = "object" /\ class_of st v <> class_of st (get_prop st this "value")) ->
  let st1 := set_prop this "value" v st in
  State.verifyValue this v st = ([], Returns true st) /\
  get_prop st1 this "value" = v /\
  (forall body,
      function_body st (get_prop st this "onChange") = Some body ->
      State.set fenv this v st =
        ([mkCall body (VObject this) [v]],
         returning tt (fenv body (VObject this) [v] st1))) /\
  (ToBoolean (get_prop st this "onChange") = false ->
   State.set fenv this v st = ([], Returns tt st1)).
Proof.
  intros Hobj Hnonnull Hv st1.
  destruct (typeof_object _ _ Hobj) as [Hnull | [a Ha]]; [contradiction|].
  assert (Halloc : is_Some (st !! this)).
  { unfold get_prop in Ha. destruct (st !! this); [eauto | discriminate]. }
  assert (Hty : typeof st v = typeof st (get_prop st this "value")).
  { rewrite Hobj. destruct Hv as [-> | [Hv _]]; [reflexivity | exact Hv]. }
  assert (Hne : strict_equals (get_prop st this "value") v = false).
  { rewrite Ha. destruct Hv as [-> | [Htyv Hclass]]; [reflexivity|].
    destruct (typeof_object _ _ Htyv) as [-> | [b ->]]; [reflexivity|].
    simpl. apply Nat.eqb_neq. intros ->. apply Hclass. rewrite Ha. reflexivity. }
  split; [|split; [|split]].
  - rewrite verifyValue_match by exact Hty.
    unfold strict_not_equals. rewrite Hne. reflexivity.
  - apply get_prop_set_prop_same. exact Halloc.
  - intros body Hbody. apply set_changed_callback; assumption.
  - intros Hsilent. apply set_changed_silent; assumption.
Qed.

(** C10, as amended.  When the callback throws during a changing [set], the
    exception reaches the caller of [set] together with the store the
    callback left: the assignment was made before the callback ran and
    [set] undoes nothing.  If the callback left the stored value alone, the
    stored value is the new value, which is [!==] the prior one. *)
Theorem set_callback_throw_propagates this v st body e st2 :
  instanceof_State st (VObject this) = true ->
  function_body st (get_prop st this "onChange") = Some body ->
  typeof st v = typeof st (get_prop st this "value") ->
  strict_equals (get_prop st this "value") v = false ->
  let st1 := set_prop this "value" v st in
  fenv body (VObject this) [v] st1 = Throws e st2 ->
  get_prop st1 this "value" = v /\
  State.set fenv this v st = ([mkCall body (VObject this) [v]], Throws e st2) /\
  (get_prop st2 this "value" = get_prop st1 this "value" ->
   State.get this st2 = ([], Returns v st2) /\
   strict_equals (get_prop st this "value") (get_prop st2 this "value") = false).
Proof.
  intros Hcell Hbody Hty Hne st1 Hthrow.
  pose proof (instanceof_State_allocated _ _ Hcell) as Halloc.
  assert (Hv : get_prop st1 this "value" = v)
    by (apply get_prop_set_prop_same; exact Halloc).
  split; [|split].
  - exact Hv.
  - rewrite (set_changed_callback fenv this v st body Halloc Hbody Hty Hne).
    fold st1. rewrite Hthrow. reflexivity.
  - intros Hkept. split.
    + rewrite get_run, Hkept, Hv. reflexivity.
    + rewrite Hkept, Hv. exact Hne.
Qed.

End SetProperties.

(** ** The properties of [createStateWith] *)

Section BinderProperties.

Variable fenv : fid -> value -> list value -> store -> outcome value.
Variable NumberToString : number -> string.
Variable ObjectToString : loc -> store -> outcome string.

Implicit Types (st : store) (cell effect : value) (body : fid).

Local Abbreviation createStateWith :=
  (Binder.createStateWith fenv NumberToString ObjectToString).
Local Abbreviation ToString := (ToString NumberToString ObjectToString).

(** C5, as amended.  On an argument that is not an instance of [State],
    the binder makes no call, so the effect is never invoked, and never
    returns.  When the string conversion of the argument yields [shown],
    it throws an [InstanceError] whose message is [shown] followed by
    [" is not an instance of the State class."]; when the conversion
    itself throws, that exception is the one the caller gets. *)
Theorem bind_rejects_non_instance cell effect st :
  instanceof_State st cell = false ->
  calls (createStateWith cell effect st) = [] /\
  (forall r st', result (createStateWith cell effect st) <> Returns r st') /\
  (forall shown st',
      result (ToString cell st) = Returns shown st' ->
      result (createStateWith cell effect st) =
        Throws (InstanceError (shown ++ " is not an instance of the State class.")) st') /\
  (forall e st',
      result (ToString cell st) = Throws e st' ->
      result (createStateWith cell effect st) = Throws e st').
Proof.
  intros Hnot. rewrite (createStateWith_not_instance _ _ _ _ _ _ Hnot).
  destruct (result (ToString cell st)) as [shown st1|e st1|];
    repeat split; intros; simpl; congruence.
Qed.

(** C6.  On an instance of [State] and a supplied effect, the binder
    calls the effect exactly once, with the value [get()] returns on the
    cell in the store of the call, and ends as the effect ends: when the
    effect returns, whatever it returns is dropped and the binder
    returns. *)
Theorem bind_runs_effect_once cell effect body st :
  instanceof_State st cell = true ->
  function_body st effect = Some body ->
  exists current,
    Binder.method_get cell st = ([], Returns current st) /\
    calls (createStateWith cell effect st) = [mkCall body VUndefined [current]] /\
    result (createStateWith cell effect st) =
      returning cell (fenv body VUndefined [current] st) /\
    (forall r st',
        fenv body VUndefined [current] st = Returns r st' ->
        result (createStateWith cell effect st) = Returns cell st').
Proof.
  intros Hcell Hbody.
  destruct (instanceof_State_object _ _ Hcell) as [this ->].
  exists (get_prop st this "value").
  rewrite (createStateWith_instance _ _ _ _ _ _ Hcell).
  rewrite (function_body_typeof _ _ _ Hbody), Hbody. simpl.
  split; [reflexivity|]. split; [reflexivity|]. split; [reflexivity|].
  intros r st' Hreturns. rewrite Hreturns. reflexivity.
Qed.

(** C7.  On an instance of [State], whatever the binder returns is the
    very reference it was given.  Without an effect it returns at once
    and the store is untouched; with an effect its outcome is the
    effect's, with the cell in place of the effect's result, so the
    store it leaves is the one the effect left: the binder allocates
    nothing and assigns nothing. *)
Theorem bind_returns_same_cell cell effect st :
  instanceof_State st cell = true ->
  (forall r st',
      result (createStateWith cell effect st) = Returns r st' ->
      r = cell /\ strict_equals r cell = true) /\
  (effect = VUndefined -> createStateWith cell effect st = ([], Returns cell st)) /\
  (forall body,
      function_body st effect = Some body ->
      exists current,
        Binder.method_get cell st = ([], Returns current st) /\
        result (createStateWith cell effect st) =
          returning cell (fenv body VUndefined [current] st)).
Proof.
  intros Hcell.
  destruct (instanceof_State_object _ _ Hcell) as [this ->].
  rewrite (createStateWith_instance _ _ _ _ _ _ Hcell).
  split; [|split].
  - intros r st'.
    assert (Hsame : forall r', r' = VObject this ->
               r' = VObject this /\ strict_equals r' (VObject this) = true).
    { intros r' ->. split; [reflexivity|]. simpl. apply Nat.eqb_refl. }
    destruct (String.eqb (typeof st effect) "undefined").
    + simpl. intros [= <- _]. apply Hsame. reflexivity.
    + destruct (function_body st effect) as [body|]; [|discriminate].
      simpl. destruct (fenv body VUndefined [get_prop st this "value"] st);
        simpl; [|discriminate..].
      intros [= <- _]. apply Hsame. reflexivity.
  - intros ->. reflexivity.
  - intros body Hbody. exists (get_prop st this "value").
    rewrite (function_body_typeof _ _ _ Hbody), Hbody.
    split; reflexivity.
Qed.

End BinderProperties.

(** ** The program on the scene *)

Module OnScene.

Import Scene.

Local Abbreviation createStateWith :=
  (Binder.createStateWith (code 3) NumberToString ObjectToString).

Local Ltac evaluate := vm_compute; reflexivity.

(** C3.  [new State(5).set("x")] throws a [ValidationError] whose message
    is ["Expected type of number but recieved string"]: the literal of
    [verifyValue] spells the word "recieved", so the message is not the
    text ["Expected type of number but received string"]. *)
Theorem set_mismatch_message_text :
  let st := with_cell (double 5) VUndefined in
  State.set (code 3) cell (VString "x") st =
    ([], Throws (ValidationError "Expected type of number but recieved string") st) /\
  "Expected type of number but recieved string"
    <> "Expected type of number but received string".
Proof.
  intros st. split.
  - rewrite set_mismatch by (vm_compute; discriminate).
    repeat f_equal.
  - discriminate.
Qed.

(** C1 fails as stated.  [cell = new State(5, x => { if (x > 10)
    cell.set(10) })]: [set(20)] has the type of the stored value and
    differs from it, the callback is registered, [set] returns, and the
    [get()] that follows returns 10, which is not 20. *)
Lemma set_then_get_differs :
  let st := with_cell (double 5) (VObject clamp_fn) in
  let v := double 20 in
  instanceof_State st (VObject cell) = true /\
  function_body st (get_prop st cell "onChange") = Some 1 /\
  typeof st v = typeof st (get_prop st cell "value") /\
  strict_equals (get_prop st cell "value") v = false /\
  exists st2,
    result (State.set (code 3) cell v st) = Returns tt st2 /\
    State.get cell st2 = ([], Returns (double 10) st2) /\
    State.get cell st2 <> ([], Returns v st2).
Proof.
  intros st v. repeat split; try evaluate.
  eexists. split; [evaluate|]. split; [evaluate|].
  vm_compute. discriminate.
Qed.

(** [cell = new State(5, x => { probe.seen = cell.get() })] and
    [cell.set(6)]: one call of the callback with 6, which reads 6 from the
    cell, and [get()] then returns 6. *)
Lemma set_notifies_once_witness :
  let st := with_cell (double 5) (VObject record_fn) in
  let v := double 6 in
  let st2 := set_prop probe "seen" v (set_prop cell "value" v st) in
  calls (State.set (code 3) cell v st) = [mkCall 0 (VObject cell) [v]] /\
  result (State.set (code 3) cell v st) = Returns tt st2 /\
  get_prop st2 probe "seen" = v /\
  State.get cell st2 = ([], Returns v st2).
Proof.
  intros st v st2.
  destruct (set_notifies_once (code 3) cell v st 0) as (_ & Hcalls & _ & Hafter);
    try evaluate.
  split; [exact Hcalls|].
  destruct (Hafter VUndefined st2) as (Hresult & Hget); try evaluate.
  split; [exact Hresult|]. split; [evaluate | exact Hget].
Defined.

(** [new State(5, ...).set("x")]. *)
Lemma set_rejects_other_type_witness :
  let st := with_cell (double 5) (VObject record_fn) in
  exists message st',
    result (State.set (code 3) cell (VString "x") st) = Throws (ValidationError message) st' /\
    calls (State.set (code 3) cell (VString "x") st) = [] /\
    st' = st /\
    State.get cell st' = State.get cell st.
Proof.
  intros st.
  apply (set_rejects_other_type (code 3) cell (VString "x") st).
  vm_compute. discriminate.
Defined.

(** C4 fails as stated.  [cell = new State(NaN, x => { probe.seen =
    cell.get() })]: [get()] returns NaN and [set] of that very value
    calls the callback. *)
Lemma set_get_NaN_notifies :
  let st := with_cell (VNumber NaN) (VObject record_fn) in
  exists v,
    State.get cell st = ([], Returns v st) /\
    calls (State.set (code 3) cell v st) = [mkCall 0 (VObject cell) [v]] /\
    State.set (code 3) cell v st <> ([], Returns tt st).
Proof.
  intros st. exists (VNumber NaN).
  split; [evaluate|]. split; [evaluate|].
  vm_compute. discriminate.
Qed.

(** [cell = new State(5, ...)] and [cell.set(cell.get())]. *)
Lemma set_equal_is_noop_witness :
  let st := with_cell (double 5) (VObject record_fn) in
  State.set (code 3) cell (double 5) st = ([], Returns tt st).
Proof.
  intros st.
  apply (proj2 (set_equal_is_noop (code 3) cell st)).
  - vm_compute. discriminate.
  - evaluate.
Defined.

(** [new State(NaN, ...).set(NaN)]. *)
Lemma set_NaN_always_changes_witness :
  let st := with_cell (VNumber NaN) (VObject record_fn) in
  let st1 := set_prop cell "value" (VNumber NaN) st in
  State.verifyValue cell (VNumber NaN) st = ([], Returns true st) /\
  State.set (code 3) cell (VNumber NaN) st =
    ([mkCall 0 (VObject cell) [VNumber NaN]],
     returning tt (code 3 0 (VObject cell) [VNumber NaN] st1)).
Proof.
  intros st st1.
  destruct (set_NaN_always_changes (code 3) cell st) as (Hverify & _ & Hcall & _ & _);
    try evaluate.
  split; [exact Hverify|].
  apply Hcall. evaluate.
Defined.

(** A cell holding a plain object accepts an object of class [Date], and
    [null]. *)
Lemma set_checks_typeof_only_witness :
  let st := with_cell (VObject probe) (VObject record_fn) in
  State.verifyValue cell (VObject date) st = ([], Returns true st) /\
  State.verifyValue cell VNull st = ([], Returns true st) /\
  calls (State.set (code 3) cell (VObject date) st)
    = [mkCall 0 (VObject cell) [VObject date]].
Proof.
  intros st.
  destruct (set_checks_typeof_only (code 3) cell (VObject date) st)
    as (Hdate & _ & Hcall & _);
    [evaluate | vm_compute; discriminate
     | right; split; [evaluate | vm_compute; discriminate] |].
  destruct (set_checks_typeof_only (code 3) cell VNull st) as (Hnull & _);
    [evaluate | vm_compute; discriminate | left; reflexivity |].
  split; [exact Hdate|]. split; [exact Hnull|].
  rewrite (Hcall 0) by evaluate. reflexivity.
Defined.

(** C10 fails as stated.  [cell = new State(0, x => { if (x < 0) {
    cell.set(0); throw "negative" } })]: [set(-1)] is a changing call, the
    callback throws and the exception reaches the caller, yet the stored
    value is then 0, the prior value, and not -1. *)
Lemma set_callback_throws_after_reset :
  let st := with_cell (double 0) (VObject reject_fn) in
  let v := double (-1) in
  instanceof_State st (VObject cell) = true /\
  function_body st (get_prop st cell "onChange") = Some 2 /\
  typeof st v = typeof st (get_prop st cell "value") /\
  strict_equals (get_prop st cell "value") v = false /\
  exists st2,
    result (State.set (code 3) cell v st) = Throws (Thrown (VString "negative")) st2 /\
    State.get cell st2 = State.get cell st /\
    get_prop st2 cell "value" <> v.
Proof.
  intros st v. repeat split; try evaluate.
  eexists. split; [evaluate|]. split; [evaluate|].
  vm_compute. discriminate.
Qed.

(** [new State(5, x => { throw "boom" }).set(6)] throws and leaves 6. *)
Lemma set_callback_throw_propagates_witness :
  let st := with_cell (double 5) (VObject boom_fn) in
  let v := double 6 in
  let st2 := set_prop cell "value" v st in
  State.set (code 3) cell v st
    = ([mkCall 3 (VObject cell) [v]], Throws (Thrown (VString "boom")) st2) /\
  State.get cell st2 = ([], Returns v st2).
Proof.
  intros st v st2.
  destruct (set_callback_throw_propagates (code 3) cell v st 3
              (Thrown (VString "boom")) st2) as (_ & Hset & Hget);
    try evaluate.
  split; [exact Hset|].
  apply Hget. reflexivity.
Defined.

(** C5 fails as stated.  A symbol is not an instance of [State], and the
    binder fails on it with the host's [TypeError]: a template literal
    cannot convert a symbol to a string. *)
Lemma bind_symbol_is_TypeError :
  instanceof_State base (VSymbol 0) = false /\
  createStateWith (VSymbol 0) VUndefined base =
    ([], Throws (TypeError "Cannot convert a Symbol value to a string") base) /\
  forall message st',
    result (createStateWith (VSymbol 0) VUndefined base)
      <> Throws (InstanceError message) st'.
Proof.
  split; [reflexivity|]. split; [reflexivity|].
  intros message st'. simpl. discriminate.
Qed.

(** [createStateWith({ get() {}, set() {} }, effect)]. *)
Lemma bind_rejects_non_instance_witness :
  createStateWith (VObject cell) (VObject boom_fn) with_lookalike =
    ([], Throws (InstanceError "[object Object] is not an instance of the State class.")
           with_lookalike).
Proof.
  destruct (bind_rejects_non_instance (code 3) NumberToString ObjectToString
              (VObject cell) (VObject boom_fn) with_lookalike)
    as (Hcalls & _ & Hshown & _); [evaluate|].
  specialize (Hshown "[object Object]" with_lookalike eq_refl).
  unfold calls in Hcalls. unfold result in Hshown.
  destruct (createStateWith (VObject cell) (VObject boom_fn) with_lookalike) as [t o].
  simpl in *. subst. reflexivity.
Defined.

(** [cell = new State("a")] and [createStateWith(cell, x => { probe.noted
    = x })]. *)
Lemma bind_runs_effect_once_witness :
  let st := with_cell (VString "a") VUndefined in
  let st' := set_prop probe "noted" (VString "a") st in
  calls (createStateWith (VObject cell) (VObject note_fn) st)
    = [mkCall 4 VUndefined [VString "a"]] /\
  result (createStateWith (VObject cell) (VObject note_fn) st) = Returns (VObject cell) st'.
Proof.
  intros st st'.
  destruct (bind_runs_effect_once (code 3) NumberToString ObjectToString
              (VObject cell) (VObject note_fn) 4 st)
    as (current & Hget & Hcalls & _ & Hreturns); try evaluate.
  assert (Hcurrent : current = VString "a").
  { vm_compute in Hget. congruence. }
  subst current. split; [exact Hcalls|].
  apply (Hreturns VUndefined st'). evaluate.
Defined.

(** [cell = new State(20)]: [createStateWith(cell)] returns [cell] in the
    same store; [createStateWith(cell, x => { if (x > 10) cell.set(10) })]
    returns [cell] too, the effect having set it to 10. *)
Lemma bind_returns_same_cell_witness :
  let st := with_cell (double 20) VUndefined in
  createStateWith (VObject cell) VUndefined st = ([], Returns (VObject cell) st) /\
  exists st',
    result (createStateWith (VObject cell) (VObject clamp_fn) st) = Returns (VObject cell) st' /\
    State.get cell st' = ([], Returns (double 10) st').
Proof.
  intros st.
  destruct (bind_returns_same_cell (code 3) NumberToString ObjectToString
              (VObject cell) VUndefined st) as (_ & Hnone & _); [evaluate|].
  destruct (bind_returns_same_cell (code 3) NumberToString ObjectToString
              (VObject cell) (VObject clamp_fn) st) as (_ & _ & Heffect); [evaluate|].
  split; [apply Hnone; reflexivity|].
  destruct (Heffect 1) as (current & Hget & Hresult); [evaluate|].
  assert (Hcurrent : current = double 20).
  { vm_compute in Hget. vm_compute. congruence. }
  subst current. rewrite Hresult.
  eexists. split; evaluate.
Defined.

End OnScene.

(** ** More facts about the host operations *)

Section MoreHostFacts.

Implicit Types (st : store) (l : loc) (v w : value) (name : string).

(** [===] identifies values, up to the sign of zero. *)
Lemma SFeqb_identifies (x y : number) :
  SFeqb x y = true -> x = y \/ exists s s', x = S754_zero s /\ y = S754_zero s'.
Proof.
  unfold SFeqb. destruct x as [s|s| |s m e], y as [s'|s'| |s' m' e']; simpl;
    try discriminate; try (destruct s; discriminate); try (destruct s'; discriminate).
  - intros _. right. eauto.
  - destruct s, s'; try discriminate; intros _; left; reflexivity.
  - destruct s, s'; try discriminate;
      destruct (Z.compare e e') eqn:He; try discriminate;
      apply Z.compare_eq in He; subst e';
      destruct (Pos.compare_cont Eq m m') eqn:Hm; try discriminate;
      change (Pos.compare m m' = Eq) in Hm;
      apply Pos.compare_eq in Hm; subst; intros _; left; reflexivity.
Qed.

Lemma strict_equals_identifies v w :
  strict_equals v w = true ->
  v = w \/ exists s s', v = VNumber (S754_zero s) /\ w = VNumber (S754_zero s').
Proof.
  destruct v, w; simpl; try discriminate; intros H.
  - left. reflexivity.
  - left. reflexivity.
  - apply Bool.eqb_prop in H. subst. left. reflexivity.
  - destruct (SFeqb_identifies _ _ H) as [-> | (s & s' & -> & ->)];
      [left; reflexivity | right; eauto].
  - apply Z.eqb_eq in H. subst. left. reflexivity.
  - apply String.eqb_eq in H. subst. left. reflexivity.
  - apply Nat.eqb_eq in H. subst. left. reflexivity.
  - apply Nat.eqb_eq in H. subst. left. reflexivity.
Qed.

(** Only [undefined] has the type ["undefined"]. *)
Lemma typeof_undefined st v : typeof st v = "undefined" -> v = VUndefined.
Proof.
  destruct v; simpl; try discriminate; [reflexivity|].
  destruct (st !! l) as [o|]; [|discriminate].
  destruct (callable o); discriminate.
Qed.

(** Assigning a data property changes no [typeof]. *)
Lemma typeof_set_prop st l name v w :
  typeof (set_prop l name v st) w = typeof st w.
Proof.
  destruct w; try reflexivity. simpl. unfold set_prop.
  destruct (st !! l) as [o|] eqn:Ho; [|reflexivity].
  destruct (decide (l = l0)) as [->|Hl].
  - rewrite lookup_insert_eq, Ho. reflexivity.
  - rewrite lookup_insert_ne by done. reflexivity.
Qed.

Lemma class_of_set_prop st l name v w :
  class_of (set_prop l name v st) w = class_of st w.
Proof.
  destruct w; try reflexivity. apply proto_chain_set_prop.
Qed.

Lemma instanceof_State_set_prop st l name v w :
  instanceof_State (set_prop l name v st) w = instanceof_State st w.
Proof.
  destruct w; try reflexivity. simpl.
  pose proof (proto_chain_set_prop st l l0 name v) as H.
  destruct (set_prop l name v st !! l0), (st !! l0); simpl in H;
    try discriminate; [|reflexivity].
  injection H as ->. reflexivity.
Qed.

(** Assigning a property leaves every other property of every object as it
    was, and allocates nothing. *)
Lemma get_prop_set_prop_frame st l l' name name' v :
  l' <> l \/ name' <> name ->
  get_prop (set_prop l name v st) l' name' = get_prop st l' name'.
Proof.
  intros Hother. unfold get_prop, set_prop.
  destruct (st !! l) as [o|] eqn:Ho; [|reflexivity].
  destruct (decide (l = l')) as [<-|Hl].
  - rewrite lookup_insert_eq, Ho. simpl.
    rewrite lookup_insert_ne; [reflexivity|].
    intros ->. destruct Hother as [H|H]; apply H; reflexivity.
  - rewrite lookup_insert_ne by done. reflexivity.
Qed.

Lemma dom_set_prop st l name v : dom (set_prop l name v st) = dom st.
Proof.
  unfold set_prop. destruct (st !! l) as [o|] eqn:Ho; [|reflexivity].
  apply dom_insert_lookup_L. eauto.
Qed.

Lemma set_prop_twice st l name v :
  set_prop l name v (set_prop l name v st) = set_prop l name v st.
Proof.
  unfold set_prop. destruct (st !! l) as [o|] eqn:Ho; [|rewrite Ho; reflexivity].
  rewrite lookup_insert_eq. simpl.
  rewrite !insert_insert_eq. reflexivity.
Qed.

(** A changing assignment can only happen on an allocated receiver: on a
    dangling one the stored value reads [undefined], and the only value of
    that type is [===] to it. *)
Lemma changed_allocated st l v :
  typeof st v = typeof st (get_prop st l "value") ->
  strict_equals (get_prop st l "value") v = false ->
  is_Some (st !! l).
Proof.
  unfold get_prop. destruct (st !! l) as [o|]; [eauto|].
  simpl. intros Hty Hne. apply typeof_undefined in Hty. subst. discriminate.
Qed.

End MoreHostFacts.

(** ** Further properties of [State] *)

Section ConstructorProperties.

Implicit Types (st : store) (v onChange : value) (derived : list class_name).

(** A computation that returns without a call hands over to what follows. *)
Lemma bind_returns {A B} (m : M A) (k : A -> M B) st a st1 :
  m st = ([], Returns a st1) -> bind m k st = k a st1.
Proof.
  intros H. unfold bind. rewrite H. destruct (k a st1). reflexivity.
Qed.

(** The constructor in one step: the fresh object with its two
    properties. *)
Lemma constructor_run derived v onChange st :
  State.constructor derived v onChange st =
    ([], Returns (VObject (fresh (dom st)))
           (<[fresh (dom st) :=
                mkObject (derived ++ ["State"; "Object"]) None
                  (<["onChange" := onChange]> (<["value" := v]> ∅))]> st)).
Proof.
  unfold State.constructor.
  rewrite (bind_returns _ _ _ (fresh (dom st))
             (<[fresh (dom st) := mkObject (derived ++ ["State"; "Object"]) None ∅]> st))
    by reflexivity.
  unfold State.assign. rewrite !bind_modify. unfold ret, set_prop.
  rewrite lookup_insert_eq. simpl. rewrite insert_insert_eq.
  rewrite lookup_insert_eq. simpl. rewrite insert_insert_eq.
  reflexivity.
Qed.

(** The reference [new] picks is not allocated. *)
Lemma fresh_not_allocated st : st !! fresh (dom st) = None.
Proof. apply not_elem_of_dom. apply is_fresh. Qed.

(** X1.  [new State(value, onChange)], or [new] of a class that extends
    [State] and inherits its constructor, always returns, calling nothing:
    [onChange] is not invoked at construction.  The reference it returns
    was not allocated before and every object that was is left as it
    was.  On the new cell [get()] returns [value], whatever it is, the
    callback is [onChange], and the cell is an instance of [State] that is
    not a function. *)
Theorem constructor_builds_cell derived v onChange st :
  exists this st',
    State.constructor derived v onChange st = ([], Returns (VObject this) st') /\
    st !! this = None /\
    (forall l, l <> this -> st' !! l = st !! l) /\
    State.get this st' = ([], Returns v st') /\
    get_prop st' this "onChange" = onChange /\
    instanceof_State st' (VObject this) = true /\
    typeof st' (VObject this) = "object".
Proof.
  eexists. eexists. split; [apply constructor_run|].
  split; [|split; [|split; [|split; [|split]]]].
  - apply fresh_not_allocated.
  - intros l Hl. rewrite lookup_insert_ne by done. reflexivity.
  - unfold State.get, State.read, gets, get_prop.
    rewrite lookup_insert_eq. simpl.
    rewrite lookup_insert_ne by discriminate.
    rewrite lookup_insert_eq. reflexivity.
  - unfold get_prop. rewrite lookup_insert_eq. simpl.
    rewrite lookup_insert_eq. reflexivity.
  - simpl. rewrite lookup_insert_eq. simpl.
    apply bool_decide_eq_true. apply elem_of_app. right. constructor.
  - simpl. rewrite lookup_insert_eq. reflexivity.
Qed.

End ConstructorProperties.

Section MoreSetProperties.

Variable fenv : fid -> value -> list value -> store -> outcome value.

Implicit Types (st : store) (this : loc) (v : value) (body : fid).

(** X2.  [verifyValue] only inspects: it calls nothing and leaves the
    store as it found it, however it ends.  It returns [false] exactly when
    the argument is [===] to the stored value, [true] exactly when the
    argument has the stored value's [typeof] and is [!==] to it, and throws
    a [ValidationError] exactly when the two [typeof] differ. *)
Theorem verifyValue_decides this v st :
  calls (State.verifyValue this v st) = [] /\
  final_store (result (State.verifyValue this v st)) = Some st /\
  (strict_equals (get_prop st this "value") v = true <->
   State.verifyValue this v st = ([], Returns false st)) /\
  (typeof st v = typeof st (get_prop st this "value") /\
   strict_equals (get_prop st this "value") v = false <->
   State.verifyValue this v st = ([], Returns true st)) /\
  (typeof st v <> typeof st (get_prop st this "value") <->
   exists message,
     State.verifyValue this v st = ([], Throws (ValidationError message) st)).
Proof.
  destruct (String.eqb_spec (typeof st v) (typeof st (get_prop st this "value")))
    as [Hsame | Hother].
  - rewrite verifyValue_match by exact Hsame. unfold strict_not_equals.
    destruct (strict_equals (get_prop st this "value") v); simpl;
      repeat split; try reflexivity; try tauto; try discriminate;
      try (intros [_ H]; discriminate H);
      try (intros H; exfalso; apply H; exact Hsame);
      intros [message H]; discriminate H.
  - rewrite verifyValue_mismatch by exact Hother.
    assert (Hne : strict_equals (get_prop st this "value") v = false).
    { destruct (strict_equals (get_prop st this "value") v) eqn:Heq; [|reflexivity].
      exfalso. apply Hother. symmetry. apply strict_equals_typeof. exact Heq. }
    rewrite Hne. repeat split; try reflexivity; try discriminate; eauto.
    intros [H _]. contradiction.
Qed.

(** X3.  [set] calls nothing but the registered callback: its call log is
    empty, or it is the single call of the function stored in [onChange],
    with the cell as [this] and the new value as only argument, and then
    the call was a change of value of the same [typeof]. *)
Theorem set_calls_only_onChange this v st :
  calls (State.set fenv this v st) = [] \/
  exists body,
    function_body st (get_prop st this "onChange") = Some body /\
    typeof st v = typeof st (get_prop st this "value") /\
    strict_equals (get_prop st this "value") v = false /\
    calls (State.set fenv this v st) = [mkCall body (VObject this) [v]].
Proof.
  destruct (String.eqb_spec (typeof st v) (typeof st (get_prop st this "value")))
    as [Hsame | Hother].
  2: { left. rewrite set_mismatch by exact Hother. reflexivity. }
  rewrite set_after_verify by exact Hsame. unfold strict_not_equals.
  destruct (strict_equals (get_prop st this "value") v) eqn:Hne; simpl;
    [left; reflexivity|].
  rewrite !(get_prop_set_prop_other st this this "value" "onChange") by discriminate.
  rewrite function_body_set_prop.
  destruct (ToBoolean (get_prop st this "onChange")); [|left; reflexivity].
  destruct (function_body st (get_prop st this "onChange")) as [body|] eqn:Hbody;
    [|left; reflexivity].
  right. exists body.
  rewrite get_prop_set_prop_same by (eapply changed_allocated; eassumption).
  repeat split; assumption || reflexivity.
Qed.

(** X4.  On a cell without a callback ([onChange] is [undefined], or any
    falsy value) [set] with a value of the stored value's [typeof] returns
    and calls nothing.  [get()] then returns that value; the one
    exception is a zero given to a cell that stores the zero of the other
    sign, which is kept.  No other property of any object changes, no
    class, no function, and nothing is allocated. *)
Theorem set_without_callback this v st :
  ToBoolean (get_prop st this "onChange") = false ->
  typeof st v = typeof st (get_prop st this "value") ->
  exists st',
    State.set fenv this v st = ([], Returns tt st') /\
    (get_prop st' this "value" = v \/
     exists s s', v = VNumber (S754_zero s) /\
                  get_prop st' this "value" = VNumber (S754_zero s')) /\
    (forall l name, l <> this \/ name <> "value" ->
                    get_prop st' l name = get_prop st l name) /\
    (forall x, class_of st' x = class_of st x) /\
    (forall f, function_body st' f = function_body st f) /\
    dom st' = dom st.
Proof.
  intros Hsilent Hty.
  destruct (strict_equals (get_prop st this "value") v) eqn:Heq.
  - exists st. rewrite (set_equal fenv this v st Heq).
    split; [reflexivity|]. split; [|repeat split; reflexivity].
    destruct (strict_equals_identifies _ _ Heq) as [-> | (s & s' & Hcur & ->)];
      [left; reflexivity | right; eauto].
  - exists (set_prop this "value" v st).
    rewrite (set_changed_silent fenv this v st Hsilent Hty Heq).
    split; [reflexivity|]. split; [|split; [|split; [|split]]].
    + left. apply get_prop_set_prop_same. eapply changed_allocated; eassumption.
    + intros l name Hother. apply get_prop_set_prop_frame. exact Hother.
    + intros x. apply class_of_set_prop.
    + intros f. apply function_body_set_prop.
    + apply dom_set_prop.
Qed.

(** X5.  A cell that stores [undefined] can never be given a value: every
    [set] on it calls nothing and leaves the store as it found it, and
    with any argument other than [undefined] it throws a
    [ValidationError]. *)
Theorem set_on_undefined_is_stuck this st :
  get_prop st this "value" = VUndefined ->
  forall v,
    calls (State.set fenv this v st) = [] /\
    final_store (result (State.set fenv this v st)) = Some st /\
    (v <> VUndefined ->
     exists message,
       result (State.set fenv this v st) = Throws (ValidationError message) st).
Proof.
  intros Hcur v.
  destruct (String.eqb_spec (typeof st v) (typeof st (get_prop st this "value")))
    as [Hsame | Hother].
  - assert (Hv : v = VUndefined).
    { rewrite Hcur in Hsame. apply (typeof_undefined st). exact Hsame. }
    subst v. rewrite set_equal by (rewrite Hcur; reflexivity).
    repeat split. intros H. contradiction.
  - rewrite set_mismatch by exact Hother. repeat split. eauto.
Qed.

(** X6.  The guard of [set] tests [onChange] for truthiness only.  When
    [onChange] is truthy and not a function, a changing [set] stores the
    new value and then fails with the host's [TypeError], no call having
    been made: the failure comes after the assignment, and [get()] returns
    the new value. *)
Theorem set_with_uncallable_onChange this v st :
  ToBoolean (get_prop st this "onChange") = true ->
  function_body st (get_prop st this "onChange") = None ->
  typeof st v = typeof st (get_prop st this "value") ->
  strict_equals (get_prop st this "value") v = false ->
  let st1 := set_prop this "value" v st in
  (exists message, State.set fenv this v st = ([], Throws (TypeError message) st1)) /\
  State.get this st1 = ([], Returns v st1).
Proof.
  intros Htruthy Hnone Hty Hne st1. split.
  - rewrite set_after_verify by exact Hty.
    unfold strict_not_equals. rewrite Hne. cbv zeta. simpl negb. cbv iota.
    rewrite !(get_prop_set_prop_other st this this "value" "onChange") by discriminate.
    rewrite Htruthy, function_body_set_prop, Hnone. eauto.
  - rewrite get_run. unfold st1.
    rewrite get_prop_set_prop_same by (eapply changed_allocated; eassumption).
    reflexivity.
Qed.

(** X7.  The [typeof] of the stored value is an invariant of [set]: if no
    function body of the program changes it, then however [set] ends, with
    a return or with an exception, the stored value has the [typeof] it
    had before the call. *)
Theorem set_keeps_typeof this v st :
  (forall body args st0 st0',
      final_store (fenv body (VObject this) args st0) = Some st0' ->
      typeof st0' (get_prop st0' this "value") = typeof st0 (get_prop st0 this "value")) ->
  forall st',
    final_store (result (State.set fenv this v st)) = Some st' ->
    typeof st' (get_prop st' this "value") = typeof st (get_prop st this "value").
Proof.
  intros Hrely st'.
  destruct (String.eqb_spec (typeof st v) (typeof st (get_prop st this "value")))
    as [Hsame | Hother].
  2: { rewrite set_mismatch by exact Hother. simpl. intros [= <-]. reflexivity. }
  rewrite set_after_verify by exact Hsame. unfold strict_not_equals.
  destruct (strict_equals (get_prop st this "value") v) eqn:Hne; simpl;
    [intros [= <-]; reflexivity|].
  assert (Hassigned :
            typeof (set_prop this "value" v st)
              (get_prop (set_prop this "value" v st) this "value")
            = typeof st (get_prop st this "value")).
  { rewrite get_prop_set_prop_same by (eapply changed_allocated; eassumption).
    rewrite typeof_set_prop. exact Hsame. }
  destruct (ToBoolean _); [|simpl; intros [= <-]; exact Hassigned].
  destruct (function_body _ _) as [body|];
    [|simpl; intros [= <-]; exact Hassigned].
  simpl. intros Hfinal. rewrite <- Hassigned.
  apply (Hrely body [get_prop (set_prop this "value" v st) this "value"]).
  destruct (fenv body (VObject this) _ (set_prop this "value" v st));
    simpl in *; congruence.
Qed.

(** X8.  On a cell without a callback, [cell.set(v); cell.set(v)] is
    [cell.set(v)]: the same outcome and the same store, for every value,
    NaN included, and also when the call throws. *)
Theorem set_twice_is_set_once this v st :
  ToBoolean (get_prop st this "onChange") = false ->
  (State.set fenv this v ;; State.set fenv this v) st = State.set fenv this v st.
Proof.
  intros Hsilent.
  destruct (String.eqb_spec (typeof st v) (typeof st (get_prop st this "value")))
    as [Hsame | Hother].
  2: { unfold bind. rewrite set_mismatch by exact Hother. reflexivity. }
  destruct (strict_equals (get_prop st this "value") v) eqn:Heq.
  - rewrite (bind_returns _ _ st tt st) by (apply set_equal; exact Heq).
    reflexivity.
  - pose proof (changed_allocated _ _ _ Hsame Heq) as Halloc.
    rewrite (bind_returns _ _ st tt (set_prop this "value" v st))
      by (apply set_changed_silent; assumption).
    rewrite (set_changed_silent fenv this v st Hsilent Hsame Heq).
    set (st1 := set_prop this "value" v st).
    assert (Hsilent1 : ToBoolean (get_prop st1 this "onChange") = false).
    { unfold st1. rewrite get_prop_set_prop_other by discriminate. exact Hsilent. }
    assert (Hv : get_prop st1 this "value" = v)
      by (apply get_prop_set_prop_same; exact Halloc).
    destruct (strict_equals v v) eqn:Hvv.
    + apply set_equal. rewrite Hv. exact Hvv.
    + rewrite set_changed_silent; try assumption.
      * unfold st1. rewrite set_prop_twice. reflexivity.
      * rewrite Hv. reflexivity.
      * rewrite Hv. exact Hvv.
Qed.

End MoreSetProperties.

(** ** Further properties of [createStateWith] *)

Section MoreBinderProperties.

Variable fenv : fid -> value -> list value -> store -> outcome value.
Variable NumberToString : number -> string.
Variable ObjectToString : loc -> store -> outcome string.

Implicit Types (st : store) (cell effect : value) (body : fid).

Local Abbreviation createStateWith :=
  (Binder.createStateWith fenv NumberToString ObjectToString).

(** X9.  [createStateWith(new State(value, onChange), effect)], for
    [State] or a class that extends it: the cell just built passes the
    [instanceof] check, and the only call made is that of the effect, with
    the constructor's [value]; [onChange] is not invoked.  The outcome is
    the effect's, with the new cell as result. *)
Theorem constructed_cell_binds derived v onChange effect body st :
  function_body st effect = Some body ->
  exists this st',
    State.constructor derived v onChange st = ([], Returns (VObject this) st') /\
    (let* cell := State.constructor derived v onChange in
     createStateWith cell effect) st =
      ([mkCall body VUndefined [v]],
       returning (VObject this) (fenv body VUndefined [v] st')).
Proof.
  intros Hbody.
  pose proof (constructor_run derived v onChange st) as Hnew.
  pose proof (fresh_not_allocated st) as Hfresh.
  set (this := fresh (dom st)) in *.
  set (st' := <[this := _]> st) in *.
  exists this, st'. split; [exact Hnew|].
  rewrite (bind_returns _ _ _ _ _ Hnew).
  assert (Hinstance : instanceof_State st' (VObject this) = true).
  { simpl. unfold st'. rewrite lookup_insert_eq. simpl.
    apply bool_decide_eq_true. apply elem_of_app. right. constructor. }
  rewrite (createStateWith_instance _ _ _ _ _ _ Hinstance).
  assert (Hbody' : function_body st' effect = Some body).
  { destruct effect; try discriminate. simpl in *. unfold st'.
    rewrite lookup_insert_ne; [exact Hbody|].
    intros <-. rewrite Hfresh in Hbody. discriminate. }
  assert (Hvalue : get_prop st' this "value" = v).
  { unfold get_prop, st'. rewrite lookup_insert_eq. simpl.
    rewrite lookup_insert_ne by discriminate.
    rewrite lookup_insert_eq. reflexivity. }
  rewrite (function_body_typeof _ _ _ Hbody'), Hbody', Hvalue. reflexivity.
Qed.

(** X10.  Only [undefined] counts as an omitted effect.  On an instance
    of [State], an effect that is neither [undefined] nor a function
    ([null], say) makes the binder fail with the host's [TypeError]; no
    call is made and the store is left as it was. *)
Theorem bind_with_uncallable_effect cell effect st :
  instanceof_State st cell = true ->
  effect <> VUndefined ->
  function_body st effect = None ->
  exists message,
    createStateWith cell effect st = ([], Throws (TypeError message) st).
Proof.
  intros Hcell Hsupplied Hnone.
  destruct (instanceof_State_object _ _ Hcell) as [this ->].
  rewrite (createStateWith_instance _ _ _ _ _ _ Hcell).
  destruct (String.eqb_spec (typeof st effect) "undefined") as [Hundef|_].
  - exfalso. apply Hsupplied. apply (typeof_undefined st). exact Hundef.
  - rewrite Hnone. eauto.
Qed.


End MoreBinderProperties.

(** ** The further properties on the scene *)

Module MoreOnScene.

Import Scene.

Local Abbreviation createStateWith :=
  (Binder.createStateWith (code 3) NumberToString ObjectToString).

Local Ltac evaluate := vm_compute; reflexivity.

(** [cell = new State(5)] and [cell.set(6)]. *)
Lemma set_without_callback_witness :
  let st := with_cell (double 5) VUndefined in
  let st' := set_prop cell "value" (double 6) st in
  State.set (code 3) cell (double 6) st = ([], Returns tt st') /\
  get_prop st' cell "value" = double 6 /\
  get_prop st' cell "onChange" = get_prop st cell "onChange".
Proof.
  intros st st'.
  destruct (set_without_callback (code 3) cell (double 6) st)
    as (st2 & Hset & _ & Hframe & _); try evaluate.
  assert (Hst2 : st2 = st').
  { assert (Hrun : State.set (code 3) cell (double 6) st = ([], Returns tt st'))
      by evaluate.
    congruence. }
  subst st2. split; [exact Hset|]. split; [evaluate|].
  apply Hframe. right. discriminate.
Defined.

(** [cell = new State(undefined)] and [cell.set(5)]. *)
Lemma set_on_undefined_is_stuck_witness :
  let st := with_cell VUndefined VUndefined in
  calls (State.set (code 3) cell (double 5) st) = [] /\
  final_store (result (State.set (code 3) cell (double 5) st)) = Some st /\
  exists message,
    result (State.set (code 3) cell (double 5) st) = Throws (ValidationError message) st.
Proof.
  intros st.
  destruct (set_on_undefined_is_stuck (code 3) cell st) with (v := double 5)
    as (Hcalls & Hstore & Hthrows); [evaluate|].
  split; [exact Hcalls|]. split; [exact Hstore|].
  apply Hthrows. vm_compute. discriminate.
Defined.

(** [cell = new State(5, "oops")] and [cell.set(6)]. *)
Lemma set_with_uncallable_onChange_witness :
  let st := with_cell (double 5) (VString "oops") in
  let st1 := set_prop cell "value" (double 6) st in
  (exists message,
      State.set (code 3) cell (double 6) st = ([], Throws (TypeError message) st1)) /\
  State.get cell st1 = ([], Returns (double 6) st1).
Proof.
  intros st st1.
  apply (set_with_uncallable_onChange (code 3) cell (double 6) st); evaluate.
Defined.

(** [cell = new State(5, f)] with an [f] that does nothing, and
    [cell.set(6)]. *)
Lemma set_keeps_typeof_witness :
  let st := with_cell (double 5) (VObject record_fn) in
  let st' := set_prop cell "value" (double 6) st in
  typeof st' (get_prop st' cell "value") = typeof st (get_prop st cell "value").
Proof.
  intros st st'.
  apply (set_keeps_typeof idle cell (double 6) st).
  - intros body args st0 st0' H. injection H as <-. reflexivity.
  - evaluate.
Defined.

(** [cell = new State(5)] and [cell.set(6); cell.set(6)]. *)
Lemma set_twice_is_set_once_witness :
  let st := with_cell (double 5) VUndefined in
  (State.set (code 3) cell (double 6) ;; State.set (code 3) cell (double 6)) st
    = State.set (code 3) cell (double 6) st.
Proof.
  intros st.
  apply (set_twice_is_set_once (code 3) cell (double 6) st). evaluate.
Defined.

(** [createStateWith(new State("a"), x => { probe.noted = x })]. *)
Lemma constructed_cell_binds_witness :
  calls ((let* c := State.constructor [] (VString "a") VUndefined in
          createStateWith c (VObject note_fn)) base)
    = [mkCall 4 VUndefined [VString "a"]].
Proof.
  destruct (constructed_cell_binds (code 3) NumberToString ObjectToString
              [] (VString "a") VUndefined (VObject note_fn) 4 base)
    as (this & st' & _ & Hrun); [evaluate|].
  rewrite Hrun. reflexivity.
Defined.

(** [createStateWith(new State(5), null)]. *)
Lemma bind_with_uncallable_effect_witness :
  let st := with_cell (double 5) VUndefined in
  exists message,
    createStateWith (VObject cell) VNull st = ([], Throws (TypeError message) st).
Proof.
  intros st.
  apply (bind_with_uncallable_effect (code 3) NumberToString ObjectToString
           (VObject cell) VNull st).
  - evaluate.
  - discriminate.
  - reflexivity.
Defined.

End MoreOnScene.
